(** * PhysiotherapyHero: the hero section of the physiotherapy site

    A shallow embedding of
    [src/components/sections/hero/PhysiotherapyHero.tsx]: the module-level
    configuration ([size], [heroContent], [sizeClasses]), the props
    interface, the nine [display*] values the component resolves from its
    props, and the React element tree it returns. *)

From Stdlib Require Import String List Bool NArith.
From stdpp Require Import base option strings gmap.
Import ListNotations.
Local Open Scope string_scope.
Set Warnings "-register-all".

(** ** JavaScript operators on the values the component handles *)

(** Truthiness of a string: every string but the empty one. *)
Definition truthy (s : string) : bool := negb (String.eqb s "").

(** [a || b] where [a] is [string | undefined] and [b] a string. *)
Definition logical_or (a : option string) (b : string) : string :=
  match a with
  | Some s => if truthy s then s else b
  | None => b
  end.

(** [a && b] on two strings: [a] when it is falsy, [b] otherwise. *)
Definition logical_and (a b : string) : string :=
  if truthy a then b else a.

(** ** React elements *)

(** The value of a JSX attribute: a string, a number ([width={200}]) or a
    bare attribute ([priority], [fill]). *)
Inductive AttrVal : Type :=
| AStr (s : string)
| ANum (n : N)
| ATrue.

(** What a JSX expression of the component evaluates to: a string child or
    an element with its type, attributes and children. React renders the
    empty string as nothing. *)
Inductive JSX : Type :=
| JString (s : string)
| JElement (type : string) (attrs : list (string * AttrVal)) (children : list JSX).

(** [cond && <Element/>] with a string condition: the falsy string itself,
    or the element. *)
Definition guard (cond : string) (e : JSX) : JSX :=
  if truthy cond then e else JString cond.

(** ** Reading the returned tree *)

(** All elements of a given type in the tree, in document order. *)
Fixpoint elementsOfType (ty : string) (j : JSX) : list JSX :=
  match j with
  | JString _ => []
  | JElement ty' _ cs =>
      (if String.eqb ty' ty then [j] else []) ++ flat_map (elementsOfType ty) cs
  end.

(** The text a tree shows: its string children, concatenated. *)
Fixpoint textContent (j : JSX) : string :=
  match j with
  | JString s => s
  | JElement _ _ cs => String.concat "" (List.map textContent cs)
  end.

Fixpoint assoc (name : string) (l : list (string * AttrVal)) : option AttrVal :=
  match l with
  | [] => None
  | (k, v) :: l' => if String.eqb k name then Some v else assoc name l'
  end.

(** The value of an attribute of an element. *)
Definition attr (name : string) (j : JSX) : option AttrVal :=
  match j with
  | JString _ => None
  | JElement _ attrs _ => assoc name attrs
  end.

(** ** Configuration (lines 11-36) *)

(** ["large" | "medium" | "small"] *)
Inductive SizeVariant : Type := large | medium | small.

(** The property key a size variant indexes [sizeClasses] with. *)
Definition sizeKey (s : SizeVariant) : string :=
  match s with
  | large => "large"
  | medium => "medium"
  | small => "small"
  end.

Module HeroContent.
Record t : Type := mk {
  title : string;
  description : string;
  ctaText : string;
  ctaUrl : string;
  secondaryCtaText : string;
  secondaryCtaUrl : string;
  heroImage : string;
  heroImageAlt : string;
  logoImage : string
}.
End HeroContent.

(** ** Props interface (lines 42-63): every field optional *)

Module Props.
Record t : Type := mk {
  title : option string;
  description : option string;
  heroImage : option string;
  heroImageAlt : option string;
  ctaText : option string;
  ctaUrl : option string;
  secondaryCtaText : option string;
  secondaryCtaUrl : option string;
  size : option SizeVariant;
  className : option string
}.

(** [{}], the default value of the [props] parameter. *)
Definition empty : t := mk None None None None None None None None None None.
End Props.

(** The part of the imported [businessInfo] object the module reads. *)
Record BusinessInfo : Type := { bookingUrl : option string }.

(** The module-level bindings the component reads: [size], and the two
    objects [heroContent] and [sizeClasses]. *)
Record Scope : Type := {
  size : SizeVariant;
  heroContent : HeroContent.t;
  sizeClasses : gmap string string
}.

(** ** Computations over the module scope *)

Definition Eff (A : Type) : Type := Scope -> A * Scope.

Definition ret {A} (a : A) : Eff A := fun s => (a, s).

Definition bind {A B} (c : Eff A) (k : A -> Eff B) : Eff B :=
  fun s => let '(a, s') := c s in k a s'.

(** Reading a module-level binding. *)
Definition read {A} (f : Scope -> A) : Eff A := fun s => (f s, s).

Definition eval {A} (c : Eff A) (s : Scope) : A := fst (c s).
Definition exec {A} (c : Eff A) (s : Scope) : Scope := snd (c s).

Notation "x <- c ;; k" := (bind c (fun x => k))
  (at level 20, c at level 99, k at level 200, format "x  <-  c  ;;  '/' k").

(** [a ?? b]: [a] unless it is undefined; [b] is evaluated only then. *)
Definition nullish_coalesce {A} (a : option A) (b : Eff A) : Eff A :=
  match a with
  | Some v => ret v
  | None => b
  end.

Notation "a ?? b" := (nullish_coalesce a b) (at level 45, left associativity).

(** [heroContent.field] *)
Definition heroContent_ {A} (field : HeroContent.t -> A) : Eff A :=
  read (fun s => field (heroContent s)).

(** [sizeClasses[key]]: undefined for a key the object lacks. *)
Definition sizeClasses_ (key : string) : Eff (option string) :=
  read (fun s => sizeClasses s !! key).

(** ** The resolved display values (lines 91-99) *)

Definition displayTitle (props : Props.t) : Eff string :=
  Props.title props ?? heroContent_ HeroContent.title.

Definition displayDescription (props : Props.t) : Eff string :=
  Props.description props ?? heroContent_ HeroContent.description.

Definition displayImage (props : Props.t) : Eff string :=
  Props.heroImage props ?? heroContent_ HeroContent.heroImage.

Definition displayImageAlt (props : Props.t) : Eff string :=
  Props.heroImageAlt props ?? heroContent_ HeroContent.heroImageAlt.

Definition displayCtaText (props : Props.t) : Eff string :=
  Props.ctaText props ?? heroContent_ HeroContent.ctaText.

Definition displayCtaUrl (props : Props.t) : Eff string :=
  Props.ctaUrl props ?? heroContent_ HeroContent.ctaUrl.

Definition displaySecondaryCtaText (props : Props.t) : Eff string :=
  Props.secondaryCtaText props ?? heroContent_ HeroContent.secondaryCtaText.

Definition displaySecondaryCtaUrl (props : Props.t) : Eff string :=
  Props.secondaryCtaUrl props ?? heroContent_ HeroContent.secondaryCtaUrl.

Definition displaySize (props : Props.t) : Eff SizeVariant :=
  Props.size props ?? read size.

(** ** The two call-to-action links (lines 132-163) *)

(** The primary [<Link>] element (lines 133-152). *)
Definition primaryLink (displayCtaText displayCtaUrl : string) : JSX :=
  JElement "Link"
    [("href", AStr displayCtaUrl);
     ("className", AStr "group relative flex min-h-12 items-center justify-center rounded-lg bg-primary px-8 py-3 font-semibold text-white transition-colors ease-in-out hover:bg-primary/90 focus-visible:outline-none focus-visible:ring-2 focus-visible:ring-ring focus-visible:ring-offset-2")]
    [JElement "span" [("className", AStr "flex flex-1 items-center justify-center gap-x-2")]
       [JElement "span" [("className", AStr "flex flex-row items-center gap-x-1")]
          [JString displayCtaText;
           JElement "span" [("className", AStr "relative inline-block h-4 w-4")]
             [JElement "ChevronRight"
                [("className", AStr "absolute left-0 top-0 h-4 w-4 transition-[transform,opacity] duration-200 group-hover:translate-x-1 group-hover:opacity-0");
                 ("aria-hidden", AStr "true")] [];
              JElement "ArrowRight"
                [("className", AStr "absolute left-0 top-0 h-4 w-4 -translate-x-1 opacity-0 transition-[transform,opacity] duration-200 group-hover:translate-x-0 group-hover:opacity-100");
                 ("aria-hidden", AStr "true")] []]]]].

(** The secondary [<Link>] element (lines 157-162). *)
Definition secondaryLink (displaySecondaryCtaText displaySecondaryCtaUrl : string) : JSX :=
  JElement "Link"
    [("href", AStr displaySecondaryCtaUrl);
     ("className", AStr "flex min-h-12 items-center justify-center rounded-lg border-2 border-border bg-background px-8 py-3 font-semibold text-foreground transition-colors hover:bg-accent hover:text-accent-foreground focus-visible:outline-none focus-visible:ring-2 focus-visible:ring-ring focus-visible:ring-offset-2")]
    [JString displaySecondaryCtaText].

(** [{displayCtaText && displayCtaUrl && (<Link .../>)}] (line 132) *)
Definition primaryCta (displayCtaText displayCtaUrl : string) : JSX :=
  guard (logical_and displayCtaText displayCtaUrl)
        (primaryLink displayCtaText displayCtaUrl).

(** [{displaySecondaryCtaText && displaySecondaryCtaUrl && (<Link .../>)}]
    (line 156) *)
Definition secondaryCta (displaySecondaryCtaText displaySecondaryCtaUrl : string) : JSX :=
  guard (logical_and displaySecondaryCtaText displaySecondaryCtaUrl)
        (secondaryLink displaySecondaryCtaText displaySecondaryCtaUrl).

Section Hero.

(** [businessInfo], imported from [@/lib/data/business-info]. *)
Variable businessInfo : BusinessInfo.

(** [cn], imported from [@/lib/utils]: merges class-name arguments, some of
    which may be undefined, into one class string. *)
Variable cn : list (option string) -> string.

(** The module scope as the file's top level creates it (lines 12-36). *)
Definition moduleScope : Scope := {|
  size := large;
  heroContent := {|
    HeroContent.title := "Move Better, Feel Better, Live Better";
    HeroContent.description :=
      "Expert physiotherapy care tailored to your recovery and performance goals. Our evidence-based treatments help you return to the activities you love.";
    HeroContent.ctaText := "Book Your Assessment";
    HeroContent.ctaUrl := logical_or (bookingUrl businessInfo) "/contact";
    HeroContent.secondaryCtaText := "Learn More";
    HeroContent.secondaryCtaUrl := "/about";
    HeroContent.heroImage :=
      "https://images.unsplash.com/photo-1576091160399-112ba8d25d1d?q=80&w=2070";
    HeroContent.heroImageAlt :=
      "Physiotherapist helping patient with rehabilitation exercises";
    HeroContent.logoImage := "/uploads/Pro-Active-Therapy.gif"
  |};
  sizeClasses :=
    <["large" := "min-h-[600px] md:min-h-[700px] lg:min-h-[800px]"]>
    (<["medium" := "min-h-[500px] md:min-h-[600px]"]>
    (<["small" := "min-h-[400px] md:min-h-[500px]"]> ∅))
|}.

(** ** The component (lines 89-183) *)

Definition PhysiotherapyHero (props : Props.t) : Eff JSX :=
  displayTitle <- displayTitle props ;;
  displayDescription <- displayDescription props ;;
  displayImage <- displayImage props ;;
  displayImageAlt <- displayImageAlt props ;;
  displayCtaText <- displayCtaText props ;;
  displayCtaUrl <- displayCtaUrl props ;;
  displaySecondaryCtaText <- displaySecondaryCtaText props ;;
  displaySecondaryCtaUrl <- displaySecondaryCtaUrl props ;;
  displaySize <- displaySize props ;;
  sizeClass <- sizeClasses_ (sizeKey displaySize) ;;
  logoImage <- heroContent_ HeroContent.logoImage ;;
  ret
  (JElement "section"
     [("className", AStr (cn [Some "relative overflow-hidden bg-background"; Props.className props]))]
     [JElement "div" [("className", AStr "mx-auto max-w-7xl")]
        [JElement "div"
           [("className", AStr (cn [Some "grid gap-8 lg:grid-cols-2 lg:gap-16"; sizeClass]))]
           [JElement "div"
              [("className", AStr "flex flex-col justify-center px-6 py-12 md:px-8 lg:py-16")]
              [JElement "div" [("className", AStr "mb-8")]
                 [JElement "Image"
                    [("src", AStr logoImage);
                     ("alt", AStr "Pro-Active Therapy Logo");
                     ("width", ANum 200);
                     ("height", ANum 200);
                     ("className", AStr "h-auto w-48 md:w-56 lg:w-64");
                     ("priority", ATrue)] []];
               JElement "h1"
                 [("className", AStr "mb-6 text-balance font-heading text-4xl font-bold leading-tight text-foreground md:text-5xl lg:text-6xl")]
                 [JString displayTitle];
               JElement "p"
                 [("className", AStr "mb-8 max-w-xl text-pretty text-lg text-muted-foreground md:text-xl")]
                 [JString displayDescription];
               JElement "div"
                 [("className", AStr "flex flex-col gap-4 sm:flex-row sm:items-center")]
                 [primaryCta displayCtaText displayCtaUrl;
                  secondaryCta displaySecondaryCtaText displaySecondaryCtaUrl]];
            JElement "div"
              [("className", AStr "relative overflow-hidden lg:rounded-l-3xl")]
              [JElement "div"
                 [("className", AStr "absolute inset-0 bg-gradient-to-br from-primary/10 to-transparent")] [];
               JElement "Image"
                 [("src", AStr displayImage);
                  ("alt", AStr displayImageAlt);
                  ("fill", ATrue);
                  ("className", AStr "object-cover");
                  ("priority", ATrue);
                  ("sizes", AStr "(max-width: 1024px) 100vw, 50vw")] []]]]]).

End Hero.

(** A class-name merger to run the component with on concrete inputs: the
    defined, non-empty arguments joined by spaces. *)
Definition joinClasses (args : list (option string)) : string :=
  String.concat " " (List.filter truthy (omap id args)).

(** The overrides of the documented usage
    [<PhysiotherapyHero title="Sports Injury Recovery" size="medium" />]. *)
Definition sportsInjuryProps : Props.t :=
  Props.mk (Some "Sports Injury Recovery") None None None None None None None
           (Some medium) None.

(** Props that give the title and nothing else. *)
Definition titleOnly (title : string) : Props.t :=
  Props.mk (Some title) None None None None None None None None None.

(** Resolution as the specification words it: the override when it is
    provided and non-empty, the default otherwise. *)
Definition specResolved (override : option string) (default : string) : string :=
  match override with
  | Some v => if truthy v then v else default
  | None => default
  end.

(** The [src] of the logo, the first [<Image>] of the tree. *)
Definition logoSrc (out : JSX) : option AttrVal :=
  match elementsOfType "Image" out with
  | logo :: _ => attr "src" logo
  | [] => None
  end.

(** The grid [<div>] that carries the height class: the second [<div>] of
    the tree. *)
Definition gridClassName (out : JSX) : option AttrVal :=
  match elementsOfType "div" out with
  | _ :: grid :: _ => attr "className" grid
  | _ => None
  end.

(** The attributes of an element; a string has none. *)
Definition attributes (j : JSX) : list (string * AttrVal) :=
  match j with
  | JString _ => []
  | JElement _ attrs _ => attrs
  end.

(** The children of an element; a string has none. *)
Definition children (j : JSX) : list JSX :=
  match j with
  | JString _ => []
  | JElement _ _ cs => cs
  end.

(** The two columns the grid [<div>] holds. *)
Definition gridChildren (out : JSX) : list JSX :=
  match elementsOfType "div" out with
  | _ :: grid :: _ => children grid
  | _ => []
  end.

(** A computation that leaves the module scope as it found it. *)
Definition readonly {A} (c : Eff A) : Prop := forall s, exec c s = s.

(** Unfolds the nine resolutions to their [??] expressions. *)
Ltac unfold_display :=
  unfold displayTitle, displayDescription, displayImage, displayImageAlt,
    displayCtaText, displayCtaUrl, displaySecondaryCtaText,
    displaySecondaryCtaUrl, displaySize, heroContent_, sizeClasses_ in *.

Create HintDb readonly.

(** * Properties *)

(** ** The operators *)

Lemma truthy_true (s : string) : truthy s = true <-> s <> "".
Proof.
  unfold truthy. rewrite negb_true_iff. apply String.eqb_neq.
Qed.

Lemma truthy_false (s : string) : truthy s = false <-> s = "".
Proof.
  unfold truthy. rewrite negb_false_iff. apply String.eqb_eq.
Qed.

Lemma logical_or_truthy (a : option string) (b : string) :
  truthy b = true -> truthy (logical_or a b) = true.
Proof.
  intros Hb. destruct a as [s|]; simpl; [|exact Hb].
  destruct (truthy s) eqn:Hs; [exact Hs | exact Hb].
Qed.

Lemma guard_logical_and (a b : string) (e : JSX) :
  guard (logical_and a b) e = if truthy a && truthy b then e else JString "".
Proof.
  unfold guard, logical_and.
  destruct (truthy a) eqn:Ha; simpl.
  - destruct (truthy b) eqn:Hb; [reflexivity|].
    apply truthy_false in Hb. now subst b.
  - rewrite Ha. apply truthy_false in Ha. now subst a.
Qed.

(** ** Running computations *)

Lemma coalesce_read_run {A} (o : option A) (f : Scope -> A) (s : Scope) :
  (o ?? read f) s = (default (f s) o, s).
Proof. now destruct o. Qed.

Lemma bind_coalesce_read {A B} (o : option A) (f : Scope -> A) (k : A -> Eff B) s :
  bind (o ?? read f) k s = k (default (f s) o) s.
Proof. unfold bind. now rewrite coalesce_read_run. Qed.

Lemma bind_read {A B} (f : Scope -> A) (k : A -> Eff B) s :
  bind (read f) k s = k (f s) s.
Proof. reflexivity. Qed.

Lemma eval_coalesce_read {A} (o : option A) (f : Scope -> A) (s : Scope) :
  eval (o ?? read f) s = default (f s) o.
Proof. unfold eval. now rewrite coalesce_read_run. Qed.

Lemma readonly_ret {A} (a : A) : readonly (ret a).
Proof. now intros s. Qed.

Lemma readonly_read {A} (f : Scope -> A) : readonly (read f).
Proof. now intros s. Qed.

Lemma readonly_coalesce {A} (o : option A) (c : Eff A) :
  readonly c -> readonly (o ?? c).
Proof. intros Hc. destruct o; [apply readonly_ret | exact Hc]. Qed.

Lemma readonly_bind {A B} (c : Eff A) (k : A -> Eff B) :
  readonly c -> (forall a, readonly (k a)) -> readonly (bind c k).
Proof.
  intros Hc Hk s. unfold exec, bind.
  specialize (Hc s). unfold exec in Hc.
  destruct (c s) as [a s']. simpl in Hc. subst s'. apply Hk.
Qed.

#[local] Hint Resolve readonly_ret readonly_read readonly_coalesce readonly_bind : readonly.

(** ** Resolution of the display values *)

(** C1 (as the code has it). Each resolved display field is the override
    whenever the prop is provided, whatever string it holds (the empty
    string included), and the default configuration value when the prop is
    absent ([default d o] is [v] when [o] is [Some v] and [d] when it is
    [None]). *)
Theorem display_values_resolved (m : Scope) (props : Props.t) :
  eval (displayTitle props) m
    = default (HeroContent.title (heroContent m)) (Props.title props)
  /\ eval (displayDescription props) m
    = default (HeroContent.description (heroContent m)) (Props.description props)
  /\ eval (displayImage props) m
    = default (HeroContent.heroImage (heroContent m)) (Props.heroImage props)
  /\ eval (displayImageAlt props) m
    = default (HeroContent.heroImageAlt (heroContent m)) (Props.heroImageAlt props)
  /\ eval (displayCtaText props) m
    = default (HeroContent.ctaText (heroContent m)) (Props.ctaText props)
  /\ eval (displayCtaUrl props) m
    = default (HeroContent.ctaUrl (heroContent m)) (Props.ctaUrl props)
  /\ eval (displaySecondaryCtaText props) m
    = default (HeroContent.secondaryCtaText (heroContent m)) (Props.secondaryCtaText props)
  /\ eval (displaySecondaryCtaUrl props) m
    = default (HeroContent.secondaryCtaUrl (heroContent m)) (Props.secondaryCtaUrl props)
  /\ eval (displaySize props) m = default (size m) (Props.size props).
Proof.
  unfold_display. repeat split; exact (eval_coalesce_read _ _ _).
Qed.

(** C1 (as the specification words it) fails: an empty-string title
    override is kept, where the specification's rule would fall back to the
    default title. *)
Lemma empty_title_override_is_kept :
  let m := moduleScope {| bookingUrl := None |} in
  let props := titleOnly "" in
  eval (displayTitle props) m = ""
  /\ specResolved (Props.title props) (HeroContent.title (heroContent m))
     = "Move Better, Feel Better, Live Better"
  /\ eval (displayTitle props) m
     <> specResolved (Props.title props) (HeroContent.title (heroContent m)).
Proof.
  cbv zeta. repeat split. discriminate.
Qed.

(** C6. With a title and nothing else in the props, every resolved field
    but the title is the default configuration's. *)
Theorem title_only_keeps_other_defaults (m : Scope) (title : string) :
  eval (displayTitle (titleOnly title)) m = title
  /\ eval (displayDescription (titleOnly title)) m = HeroContent.description (heroContent m)
  /\ eval (displayImage (titleOnly title)) m = HeroContent.heroImage (heroContent m)
  /\ eval (displayImageAlt (titleOnly title)) m = HeroContent.heroImageAlt (heroContent m)
  /\ eval (displayCtaText (titleOnly title)) m = HeroContent.ctaText (heroContent m)
  /\ eval (displayCtaUrl (titleOnly title)) m = HeroContent.ctaUrl (heroContent m)
  /\ eval (displaySecondaryCtaText (titleOnly title)) m
     = HeroContent.secondaryCtaText (heroContent m)
  /\ eval (displaySecondaryCtaUrl (titleOnly title)) m
     = HeroContent.secondaryCtaUrl (heroContent m)
  /\ eval (displaySize (titleOnly title)) m = size m.
Proof.
  repeat split.
Qed.

Lemma eval_displayTitle m props :
  eval (displayTitle props) m
  = default (HeroContent.title (heroContent m)) (Props.title props).
Proof. exact (eval_coalesce_read _ _ _). Qed.

Lemma eval_displayDescription m props :
  eval (displayDescription props) m
  = default (HeroContent.description (heroContent m)) (Props.description props).
Proof. exact (eval_coalesce_read _ _ _). Qed.

Lemma eval_displayImage m props :
  eval (displayImage props) m
  = default (HeroContent.heroImage (heroContent m)) (Props.heroImage props).
Proof. exact (eval_coalesce_read _ _ _). Qed.

Lemma eval_displayImageAlt m props :
  eval (displayImageAlt props) m
  = default (HeroContent.heroImageAlt (heroContent m)) (Props.heroImageAlt props).
Proof. exact (eval_coalesce_read _ _ _). Qed.

Lemma eval_displayCtaText m props :
  eval (displayCtaText props) m
  = default (HeroContent.ctaText (heroContent m)) (Props.ctaText props).
Proof. exact (eval_coalesce_read _ _ _). Qed.

Lemma eval_displayCtaUrl m props :
  eval (displayCtaUrl props) m
  = default (HeroContent.ctaUrl (heroContent m)) (Props.ctaUrl props).
Proof. exact (eval_coalesce_read _ _ _). Qed.

Lemma eval_displaySecondaryCtaText m props :
  eval (displaySecondaryCtaText props) m
  = default (HeroContent.secondaryCtaText (heroContent m)) (Props.secondaryCtaText props).
Proof. exact (eval_coalesce_read _ _ _). Qed.

Lemma eval_displaySecondaryCtaUrl m props :
  eval (displaySecondaryCtaUrl props) m
  = default (HeroContent.secondaryCtaUrl (heroContent m)) (Props.secondaryCtaUrl props).
Proof. exact (eval_coalesce_read _ _ _). Qed.

Lemma eval_displaySize m props :
  eval (displaySize props) m = default (size m) (Props.size props).
Proof. exact (eval_coalesce_read _ _ _). Qed.

(** ** The returned tree *)


Lemma primaryCta_cases (t u : string) :
  primaryCta t u = if truthy t && truthy u then primaryLink t u else JString "".
Proof. apply guard_logical_and. Qed.

Lemma secondaryCta_cases (t u : string) :
  secondaryCta t u = if truthy t && truthy u then secondaryLink t u else JString "".
Proof. apply guard_logical_and. Qed.

Lemma links_primaryCta (t u : string) :
  elementsOfType "Link" (primaryCta t u)
  = if truthy t && truthy u then [primaryLink t u] else [].
Proof.
  rewrite primaryCta_cases. now destruct (truthy t && truthy u).
Qed.

Lemma links_secondaryCta (t u : string) :
  elementsOfType "Link" (secondaryCta t u)
  = if truthy t && truthy u then [secondaryLink t u] else [].
Proof.
  rewrite secondaryCta_cases. now destruct (truthy t && truthy u).
Qed.

Lemma primary_is_not_secondary (t u t' u' : string) :
  primaryLink t u <> secondaryLink t' u'.
Proof. unfold primaryLink, secondaryLink. discriminate. Qed.

(** Membership in the list of links a pair of call-to-action slots yields. *)
Lemma In_cta_links (b1 b2 : bool) (t u t' u' : string) :
  let links := ((if b1 then [primaryLink t u] else [])
                ++ (if b2 then [secondaryLink t' u'] else []))%list in
  (In (primaryLink t u) links <-> b1 = true)
  /\ (In (secondaryLink t' u') links <-> b2 = true).
Proof.
  pose proof (primary_is_not_secondary t u t' u') as Hne.
  destruct b1, b2; simpl; repeat split; intros H; auto;
    try discriminate H;
    repeat match goal with
           | H : _ \/ _ |- _ => destruct H
           | H : False |- _ => destruct H
           end;
    try reflexivity; exfalso; apply Hne; congruence.
Qed.

(** Exposes the tree [PhysiotherapyHero] returns in a scope. *)
Ltac run_hero :=
  unfold PhysiotherapyHero, eval, exec; unfold_display;
  rewrite ?bind_coalesce_read, ?bind_read;
  cbn [ret fst snd].

Section Tree.

Variable cn : list (option string) -> string.

Lemma hero_links (props : Props.t) (m : Scope) :
  elementsOfType "Link" (eval (PhysiotherapyHero cn props) m)
  = (elementsOfType "Link"
       (primaryCta (eval (displayCtaText props) m) (eval (displayCtaUrl props) m))
     ++ elementsOfType "Link"
       (secondaryCta (eval (displaySecondaryCtaText props) m)
                     (eval (displaySecondaryCtaUrl props) m)))%list.
Proof.
  rewrite eval_displayCtaText, eval_displayCtaUrl,
    eval_displaySecondaryCtaText, eval_displaySecondaryCtaUrl.
  run_hero.
  cbn [elementsOfType flat_map String.eqb Ascii.eqb Bool.eqb app].
  now rewrite !app_nil_r.
Qed.

Lemma hero_logoSrc (props : Props.t) (m : Scope) :
  logoSrc (eval (PhysiotherapyHero cn props) m)
  = Some (AStr (HeroContent.logoImage (heroContent m))).
Proof. run_hero. reflexivity. Qed.

Lemma hero_gridClassName (props : Props.t) (m : Scope) :
  gridClassName (eval (PhysiotherapyHero cn props) m)
  = Some (AStr (cn [Some "grid gap-8 lg:grid-cols-2 lg:gap-16";
                    eval (sizeClasses_ (sizeKey (eval (displaySize props) m))) m])).
Proof. rewrite eval_displaySize. run_hero. reflexivity. Qed.

Lemma hero_readonly (props : Props.t) : readonly (PhysiotherapyHero cn props).
Proof.
  unfold PhysiotherapyHero. unfold_display.
  repeat (apply readonly_bind; [auto with readonly | intros ?]).
  apply readonly_ret.
Qed.

End Tree.

Lemma moduleScope_sizeClass (businessInfo : BusinessInfo) (sz : SizeVariant) :
  eval (sizeClasses_ (sizeKey sz)) (moduleScope businessInfo)
  = Some match sz with
         | large => "min-h-[600px] md:min-h-[700px] lg:min-h-[800px]"
         | medium => "min-h-[500px] md:min-h-[600px]"
         | small => "min-h-[400px] md:min-h-[500px]"
         end.
Proof.
  unfold eval, sizeClasses_, read, moduleScope. cbn [fst sizeClasses].
  destruct sz; cbn [sizeKey].
  - apply lookup_insert_eq.
  - rewrite lookup_insert_ne by discriminate. apply lookup_insert_eq.
  - rewrite !lookup_insert_ne by discriminate. apply lookup_insert_eq.
Qed.

Lemma moduleScope_ctaUrl_truthy (businessInfo : BusinessInfo) :
  truthy (HeroContent.ctaUrl (heroContent (moduleScope businessInfo))) = true.
Proof. now apply logical_or_truthy. Qed.

Section Claims.

Variable businessInfo : BusinessInfo.
Variable cn : list (option string) -> string.

(** ** Call-to-action links *)


(** ** Sizes *)

(** C4. Whatever the props, the resolved size is one of large, medium and
    small, indexing [sizeClasses] with it finds one of the three height
    classes (never undefined), and that class is the one the grid is given. *)
Theorem size_class_lookup_total (props : Props.t) :
  (eval (displaySize props) (moduleScope businessInfo) = large
   \/ eval (displaySize props) (moduleScope businessInfo) = medium
   \/ eval (displaySize props) (moduleScope businessInfo) = small)
  /\ eval (sizeClasses_ (sizeKey (eval (displaySize props) (moduleScope businessInfo))))
          (moduleScope businessInfo)
     = Some match eval (displaySize props) (moduleScope businessInfo) with
            | large => "min-h-[600px] md:min-h-[700px] lg:min-h-[800px]"
            | medium => "min-h-[500px] md:min-h-[600px]"
            | small => "min-h-[400px] md:min-h-[500px]"
            end
  /\ gridClassName (eval (PhysiotherapyHero cn props) (moduleScope businessInfo))
     = Some (AStr (cn [Some "grid gap-8 lg:grid-cols-2 lg:gap-16";
                       Some match eval (displaySize props) (moduleScope businessInfo) with
                            | large => "min-h-[600px] md:min-h-[700px] lg:min-h-[800px]"
                            | medium => "min-h-[500px] md:min-h-[600px]"
                            | small => "min-h-[400px] md:min-h-[500px]"
                            end])).
Proof.
  rewrite hero_gridClassName, !moduleScope_sizeClass.
  split; [|split; reflexivity].
  destruct (eval (displaySize props) (moduleScope businessInfo)); auto.
Qed.

(** C9. Without a size override the resolved size is large, and the grid
    gets the large entry of [sizeClasses]. *)
Theorem default_size_is_large (props : Props.t) :
  Props.size props = None ->
  eval (displaySize props) (moduleScope businessInfo) = large
  /\ eval (sizeClasses_ (sizeKey (eval (displaySize props) (moduleScope businessInfo))))
          (moduleScope businessInfo)
     = Some "min-h-[600px] md:min-h-[700px] lg:min-h-[800px]"
  /\ gridClassName (eval (PhysiotherapyHero cn props) (moduleScope businessInfo))
     = Some (AStr (cn [Some "grid gap-8 lg:grid-cols-2 lg:gap-16";
                       Some "min-h-[600px] md:min-h-[700px] lg:min-h-[800px]"])).
Proof.
  intros Hsize.
  assert (eval (displaySize props) (moduleScope businessInfo) = large) as Hlarge.
  { rewrite eval_displaySize, Hsize. reflexivity. }
  rewrite hero_gridClassName, Hlarge, moduleScope_sizeClass. auto.
Qed.

(** ** Rendering the defaults *)

(** C5. Rendered with no overrides, the tree shows the default
    configuration's text and nothing else: the heading is the default
    title, the paragraph the default description, and the two links are
    labelled with the default ctaText and secondaryCtaText. *)
Theorem no_overrides_shows_default_text :
  List.map textContent
    (elementsOfType "h1" (eval (PhysiotherapyHero cn Props.empty) (moduleScope businessInfo)))
  = [HeroContent.title (heroContent (moduleScope businessInfo))]
  /\ List.map textContent
    (elementsOfType "p" (eval (PhysiotherapyHero cn Props.empty) (moduleScope businessInfo)))
  = [HeroContent.description (heroContent (moduleScope businessInfo))]
  /\ List.map textContent
    (elementsOfType "Link" (eval (PhysiotherapyHero cn Props.empty) (moduleScope businessInfo)))
  = [HeroContent.ctaText (heroContent (moduleScope businessInfo));
     HeroContent.secondaryCtaText (heroContent (moduleScope businessInfo))]
  /\ textContent (eval (PhysiotherapyHero cn Props.empty) (moduleScope businessInfo))
  = HeroContent.title (heroContent (moduleScope businessInfo))
    ++ HeroContent.description (heroContent (moduleScope businessInfo))
    ++ HeroContent.ctaText (heroContent (moduleScope businessInfo))
    ++ HeroContent.secondaryCtaText (heroContent (moduleScope businessInfo))
  /\ HeroContent.title (heroContent (moduleScope businessInfo))
     = "Move Better, Feel Better, Live Better"
  /\ HeroContent.ctaText (heroContent (moduleScope businessInfo)) = "Book Your Assessment"
  /\ HeroContent.secondaryCtaText (heroContent (moduleScope businessInfo)) = "Learn More".
Proof.
  pose proof (moduleScope_ctaUrl_truthy businessInfo) as Hu. cbn in Hu.
  repeat split.
  - run_hero. unfold primaryCta, secondaryCta, guard, logical_and.
    cbn. rewrite Hu. reflexivity.
  - run_hero. unfold primaryCta, secondaryCta, guard, logical_and.
    cbn. rewrite Hu. reflexivity.
  - rewrite hero_links, links_primaryCta, links_secondaryCta.
    cbn. rewrite Hu. reflexivity.
  - run_hero. unfold primaryCta, secondaryCta, guard, logical_and.
    cbn. rewrite Hu. reflexivity.
Qed.

(** C7. For the overrides [{title: "Sports Injury Recovery", size:
    "medium"}] the resolved title is the override, the height class is the
    medium entry of [sizeClasses], every other resolved field is the
    default, and both links are there with the default labels and URLs:
    the links of the tree are labelled "Book Your Assessment" and "Learn
    More" and point to [businessInfo.bookingUrl || "/contact"] and to
    "/about". *)
Theorem sports_injury_example :
  eval (displayTitle sportsInjuryProps) (moduleScope businessInfo) = "Sports Injury Recovery"
  /\ eval (displaySize sportsInjuryProps) (moduleScope businessInfo) = medium
  /\ eval (sizeClasses_ (sizeKey (eval (displaySize sportsInjuryProps) (moduleScope businessInfo))))
          (moduleScope businessInfo)
     = Some "min-h-[500px] md:min-h-[600px]"
  /\ gridClassName (eval (PhysiotherapyHero cn sportsInjuryProps) (moduleScope businessInfo))
     = Some (AStr (cn [Some "grid gap-8 lg:grid-cols-2 lg:gap-16";
                       Some "min-h-[500px] md:min-h-[600px]"]))
  /\ eval (displayDescription sportsInjuryProps) (moduleScope businessInfo)
     = "Expert physiotherapy care tailored to your recovery and performance goals. Our evidence-based treatments help you return to the activities you love."
  /\ eval (displayImage sportsInjuryProps) (moduleScope businessInfo)
     = HeroContent.heroImage (heroContent (moduleScope businessInfo))
  /\ eval (displayImageAlt sportsInjuryProps) (moduleScope businessInfo)
     = HeroContent.heroImageAlt (heroContent (moduleScope businessInfo))
  /\ eval (displayCtaText sportsInjuryProps) (moduleScope businessInfo)
     = HeroContent.ctaText (heroContent (moduleScope businessInfo))
  /\ eval (displayCtaUrl sportsInjuryProps) (moduleScope businessInfo)
     = HeroContent.ctaUrl (heroContent (moduleScope businessInfo))
  /\ eval (displaySecondaryCtaText sportsInjuryProps) (moduleScope businessInfo)
     = HeroContent.secondaryCtaText (heroContent (moduleScope businessInfo))
  /\ eval (displaySecondaryCtaUrl sportsInjuryProps) (moduleScope businessInfo)
     = HeroContent.secondaryCtaUrl (heroContent (moduleScope businessInfo))
  /\ elementsOfType "Link"
       (eval (PhysiotherapyHero cn sportsInjuryProps) (moduleScope businessInfo))
     = [primaryLink "Book Your Assessment" (logical_or (bookingUrl businessInfo) "/contact");
        secondaryLink "Learn More" "/about"]
  /\ List.map textContent
       (elementsOfType "Link"
          (eval (PhysiotherapyHero cn sportsInjuryProps) (moduleScope businessInfo)))
     = ["Book Your Assessment"; "Learn More"]
  /\ List.map (attr "href")
       (elementsOfType "Link"
          (eval (PhysiotherapyHero cn sportsInjuryProps) (moduleScope businessInfo)))
     = [Some (AStr (logical_or (bookingUrl businessInfo) "/contact"));
        Some (AStr "/about")].
Proof.
  pose proof (moduleScope_ctaUrl_truthy businessInfo) as Hu. cbn in Hu.
  split; [reflexivity|]. split; [reflexivity|].
  split; [apply moduleScope_sizeClass|].
  split; [rewrite hero_gridClassName; now rewrite moduleScope_sizeClass|].
  repeat (split; [reflexivity|]).
  rewrite hero_links, links_primaryCta, links_secondaryCta.
  cbn. rewrite Hu. repeat split.
Qed.

(** C10. The default primary URL is [businessInfo.bookingUrl] when that is
    a non-empty string and ["/contact"] otherwise, so without a ctaUrl
    override the resolved URL is never empty and the primary link is left
    out only when the resolved ctaText is empty. *)
Theorem default_cta_url_never_empty (props : Props.t) :
  Props.ctaUrl props = None ->
  HeroContent.ctaUrl (heroContent (moduleScope businessInfo))
  = match bookingUrl businessInfo with
    | Some url => if String.eqb url "" then "/contact" else url
    | None => "/contact"
    end
  /\ eval (displayCtaUrl props) (moduleScope businessInfo)
     = HeroContent.ctaUrl (heroContent (moduleScope businessInfo))
  /\ eval (displayCtaUrl props) (moduleScope businessInfo) <> ""
  /\ (In (primaryLink (eval (displayCtaText props) (moduleScope businessInfo))
                      (eval (displayCtaUrl props) (moduleScope businessInfo)))
         (elementsOfType "Link"
            (eval (PhysiotherapyHero cn props) (moduleScope businessInfo)))
      <-> eval (displayCtaText props) (moduleScope businessInfo) <> "").
Proof.
  intros Hurl.
  assert (eval (displayCtaUrl props) (moduleScope businessInfo)
          = HeroContent.ctaUrl (heroContent (moduleScope businessInfo))) as Hdefault.
  { rewrite eval_displayCtaUrl, Hurl. reflexivity. }
  pose proof (moduleScope_ctaUrl_truthy businessInfo) as Hu.
  split; [|split; [exact Hdefault|split]].
  - cbn. unfold logical_or, truthy.
    destruct (bookingUrl businessInfo) as [url|]; [|reflexivity].
    now destruct (String.eqb url "").
  - rewrite Hdefault. now apply truthy_true.
  - rewrite hero_links, links_primaryCta, links_secondaryCta.
    etransitivity; [apply In_cta_links|].
    rewrite Hdefault, Hu, andb_true_r. apply truthy_true.
Qed.

(** ** What the props can and cannot override *)

(** C3 (as the code has it). The props carry title, description,
    heroImage, heroImageAlt, ctaText, ctaUrl, secondaryCtaText,
    secondaryCtaUrl and size (and className), each optional on its own, and
    a field left out resolves to the default whatever the other fields
    hold; logoImage is not among them: the logo of every rendering is the
    default configuration's. *)
Theorem absent_props_default_and_logo_fixed (m : Scope)
    (title description heroImage heroImageAlt ctaText ctaUrl secondaryCtaText
       secondaryCtaUrl className : option string)
    (size' : option SizeVariant) :
  logoSrc (eval (PhysiotherapyHero cn
             (Props.mk title description heroImage heroImageAlt ctaText ctaUrl
                secondaryCtaText secondaryCtaUrl size' className)) m)
  = Some (AStr (HeroContent.logoImage (heroContent m)))
  /\ eval (displayTitle
             (Props.mk None description heroImage heroImageAlt ctaText ctaUrl
                secondaryCtaText secondaryCtaUrl size' className)) m
     = HeroContent.title (heroContent m)
  /\ eval (displayDescription
             (Props.mk title None heroImage heroImageAlt ctaText ctaUrl
                secondaryCtaText secondaryCtaUrl size' className)) m
     = HeroContent.description (heroContent m)
  /\ eval (displayImage
             (Props.mk title description None heroImageAlt ctaText ctaUrl
                secondaryCtaText secondaryCtaUrl size' className)) m
     = HeroContent.heroImage (heroContent m)
  /\ eval (displayImageAlt
             (Props.mk title description heroImage None ctaText ctaUrl
                secondaryCtaText secondaryCtaUrl size' className)) m
     = HeroContent.heroImageAlt (heroContent m)
  /\ eval (displayCtaText
             (Props.mk title description heroImage heroImageAlt None ctaUrl
                secondaryCtaText secondaryCtaUrl size' className)) m
     = HeroContent.ctaText (heroContent m)
  /\ eval (displayCtaUrl
             (Props.mk title description heroImage heroImageAlt ctaText None
                secondaryCtaText secondaryCtaUrl size' className)) m
     = HeroContent.ctaUrl (heroContent m)
  /\ eval (displaySecondaryCtaText
             (Props.mk title description heroImage heroImageAlt ctaText ctaUrl
                None secondaryCtaUrl size' className)) m
     = HeroContent.secondaryCtaText (heroContent m)
  /\ eval (displaySecondaryCtaUrl
             (Props.mk title description heroImage heroImageAlt ctaText ctaUrl
                secondaryCtaText None size' className)) m
     = HeroContent.secondaryCtaUrl (heroContent m)
  /\ eval (displaySize
             (Props.mk title description heroImage heroImageAlt ctaText ctaUrl
                secondaryCtaText secondaryCtaUrl None className)) m
     = size m.
Proof.
  split; [apply hero_logoSrc | repeat split].
Qed.

End Claims.

(** ** Concrete runs *)

(** C3 (as the specification words it) fails: no props value gives the
    logo another source than the default configuration's logoImage, so the
    logo cannot be overridden per render. *)
Lemma no_props_change_the_logo :
  ~ exists props : Props.t,
      logoSrc (eval (PhysiotherapyHero joinClasses props)
                 (moduleScope {| bookingUrl := None |}))
      <> Some (AStr "/uploads/Pro-Active-Therapy.gif").
Proof.
  intros [props Hlogo]. apply Hlogo. apply hero_logoSrc.
Qed.

(** [default_size_is_large] at props that give a title only. *)
Lemma default_size_is_large_witness :
  Props.size (titleOnly "Knee Rehabilitation") = None
  /\ eval (displaySize (titleOnly "Knee Rehabilitation"))
          (moduleScope {| bookingUrl := Some "/book" |}) = large
  /\ eval (sizeClasses_
             (sizeKey (eval (displaySize (titleOnly "Knee Rehabilitation"))
                         (moduleScope {| bookingUrl := Some "/book" |}))))
          (moduleScope {| bookingUrl := Some "/book" |})
     = Some "min-h-[600px] md:min-h-[700px] lg:min-h-[800px]"
  /\ gridClassName
       (eval (PhysiotherapyHero joinClasses (titleOnly "Knee Rehabilitation"))
          (moduleScope {| bookingUrl := Some "/book" |}))
     = Some (AStr (joinClasses [Some "grid gap-8 lg:grid-cols-2 lg:gap-16";
                                Some "min-h-[600px] md:min-h-[700px] lg:min-h-[800px]"])).
Proof.
  split; [reflexivity|].
  apply (default_size_is_large {| bookingUrl := Some "/book" |} joinClasses
           (titleOnly "Knee Rehabilitation")).
  reflexivity.
Defined.

(** [default_cta_url_never_empty] with no props and an empty booking URL:
    the primary link points to ["/contact"]. *)
Lemma default_cta_url_never_empty_witness :
  Props.ctaUrl Props.empty = None
  /\ HeroContent.ctaUrl (heroContent (moduleScope {| bookingUrl := Some "" |})) = "/contact"
  /\ eval (displayCtaUrl Props.empty) (moduleScope {| bookingUrl := Some "" |})
     = HeroContent.ctaUrl (heroContent (moduleScope {| bookingUrl := Some "" |}))
  /\ eval (displayCtaUrl Props.empty) (moduleScope {| bookingUrl := Some "" |}) <> ""
  /\ (In (primaryLink (eval (displayCtaText Props.empty) (moduleScope {| bookingUrl := Some "" |}))
                      (eval (displayCtaUrl Props.empty) (moduleScope {| bookingUrl := Some "" |})))
         (elementsOfType "Link"
            (eval (PhysiotherapyHero joinClasses Props.empty)
               (moduleScope {| bookingUrl := Some "" |})))
      <-> eval (displayCtaText Props.empty) (moduleScope {| bookingUrl := Some "" |}) <> "").
Proof.
  split; [reflexivity|].
  apply (default_cta_url_never_empty {| bookingUrl := Some "" |} joinClasses Props.empty).
  reflexivity.
Defined.

(** * Further properties of the rendering *)

Lemma append_empty_r (s : string) : s ++ "" = s.
Proof.
  induction s as [|c s IH]; [reflexivity|].
  change (String c s ++ "") with (String c (s ++ "")). now rewrite IH.
Qed.

Lemma textContent_primaryLink (t u : string) : textContent (primaryLink t u) = t.
Proof.
  unfold primaryLink. cbn [textContent List.map String.concat].
  change ("" ++ "") with "". apply append_empty_r.
Qed.

Lemma textContent_secondaryLink (t u : string) : textContent (secondaryLink t u) = t.
Proof. reflexivity. Qed.

Lemma textContent_primaryCta (t u : string) :
  textContent (primaryCta t u) = if truthy t && truthy u then t else "".
Proof.
  rewrite primaryCta_cases.
  destruct (truthy t && truthy u); [apply textContent_primaryLink | reflexivity].
Qed.

Lemma textContent_secondaryCta (t u : string) :
  textContent (secondaryCta t u) = if truthy t && truthy u then t else "".
Proof.
  rewrite secondaryCta_cases. now destruct (truthy t && truthy u).
Qed.

(** Elements that occur in neither call-to-action slot. *)
Lemma cta_has_no (ty : string) (t u : string) :
  String.eqb "Link" ty = false -> String.eqb "span" ty = false ->
  String.eqb "ChevronRight" ty = false -> String.eqb "ArrowRight" ty = false ->
  elementsOfType ty (primaryCta t u) = [] /\ elementsOfType ty (secondaryCta t u) = [].
Proof.
  intros HL Hs Hc Ha.
  rewrite primaryCta_cases, secondaryCta_cases.
  destruct (truthy t && truthy u); unfold primaryLink, secondaryLink;
    cbn [elementsOfType flat_map app]; rewrite ?HL, ?Hs, ?Hc, ?Ha; split; reflexivity.
Qed.

Section Coverage.

Variable cn : list (option string) -> string.

(** X1. Whatever the props, the tree holds two images: the logo, with the
    default configuration's logoImage and the fixed alt text, then the hero
    picture, whose src and alt are the resolved image and alt text. *)
Theorem images_of_rendering (m : Scope) (props : Props.t) :
  List.map (attr "src") (elementsOfType "Image" (eval (PhysiotherapyHero cn props) m))
  = [Some (AStr (HeroContent.logoImage (heroContent m)));
     Some (AStr (eval (displayImage props) m))]
  /\ List.map (attr "alt") (elementsOfType "Image" (eval (PhysiotherapyHero cn props) m))
  = [Some (AStr "Pro-Active Therapy Logo");
     Some (AStr (eval (displayImageAlt props) m))].
Proof.
  rewrite eval_displayImage, eval_displayImageAlt.
  run_hero. cbn [elementsOfType flat_map String.eqb Ascii.eqb Bool.eqb app].
  match goal with
  | |- context [primaryCta ?t ?u] =>
      rewrite (proj1 (cta_has_no "Image" t u eq_refl eq_refl eq_refl eq_refl))
  end.
  match goal with
  | |- context [secondaryCta ?t ?u] =>
      rewrite (proj2 (cta_has_no "Image" t u eq_refl eq_refl eq_refl eq_refl))
  end.
  split; reflexivity.
Qed.

(** X2. Whatever the props, the tree has one heading and one paragraph; the
    heading shows the resolved title and the paragraph the resolved
    description, an empty override giving an empty heading or paragraph. *)
Theorem heading_and_paragraph (m : Scope) (props : Props.t) :
  List.map textContent (elementsOfType "h1" (eval (PhysiotherapyHero cn props) m))
  = [eval (displayTitle props) m]
  /\ List.map textContent (elementsOfType "p" (eval (PhysiotherapyHero cn props) m))
  = [eval (displayDescription props) m].
Proof.
  rewrite eval_displayTitle, eval_displayDescription.
  run_hero. cbn [elementsOfType flat_map String.eqb Ascii.eqb Bool.eqb app].
  repeat match goal with
  | |- context [elementsOfType ?ty (primaryCta ?t ?u)] =>
      rewrite (proj1 (cta_has_no ty t u eq_refl eq_refl eq_refl eq_refl))
  | |- context [elementsOfType ?ty (secondaryCta ?t ?u)] =>
      rewrite (proj2 (cta_has_no ty t u eq_refl eq_refl eq_refl eq_refl))
  end.
  split; reflexivity.
Qed.

(** X3. Every link of the tree is labelled with the resolved text of its
    pair and points to the resolved URL of its pair. *)
Theorem links_carry_resolved_text_and_url (m : Scope) (props : Props.t) :
  List.map textContent (elementsOfType "Link" (eval (PhysiotherapyHero cn props) m))
  = ((if truthy (eval (displayCtaText props) m) && truthy (eval (displayCtaUrl props) m)
      then [eval (displayCtaText props) m] else [])
     ++ (if truthy (eval (displaySecondaryCtaText props) m)
            && truthy (eval (displaySecondaryCtaUrl props) m)
         then [eval (displaySecondaryCtaText props) m] else []))%list
  /\ List.map (attr "href") (elementsOfType "Link" (eval (PhysiotherapyHero cn props) m))
  = ((if truthy (eval (displayCtaText props) m) && truthy (eval (displayCtaUrl props) m)
      then [Some (AStr (eval (displayCtaUrl props) m))] else [])
     ++ (if truthy (eval (displaySecondaryCtaText props) m)
            && truthy (eval (displaySecondaryCtaUrl props) m)
         then [Some (AStr (eval (displaySecondaryCtaUrl props) m))] else []))%list.
Proof.
  rewrite hero_links, links_primaryCta, links_secondaryCta, !List.map_app.
  destruct (truthy (eval (displayCtaText props) m) && truthy (eval (displayCtaUrl props) m)),
    (truthy (eval (displaySecondaryCtaText props) m)
     && truthy (eval (displaySecondaryCtaUrl props) m));
    cbn [List.map app]; rewrite ?textContent_primaryLink; split; reflexivity.
Qed.

(** X4. An empty-string override of ctaText or of ctaUrl removes the
    primary link, whatever the defaults are, and leaves the secondary link
    as it would be. *)
Theorem empty_override_hides_primary_link (m : Scope) (props : Props.t) :
  Props.ctaText props = Some "" \/ Props.ctaUrl props = Some "" ->
  elementsOfType "Link" (eval (PhysiotherapyHero cn props) m)
  = if truthy (eval (displaySecondaryCtaText props) m)
       && truthy (eval (displaySecondaryCtaUrl props) m)
    then [secondaryLink (eval (displaySecondaryCtaText props) m)
                        (eval (displaySecondaryCtaUrl props) m)]
    else [].
Proof.
  intros Hblank.
  rewrite hero_links, links_primaryCta, links_secondaryCta.
  assert (truthy (eval (displayCtaText props) m) && truthy (eval (displayCtaUrl props) m)
          = false) as ->; [|reflexivity].
  rewrite eval_displayCtaText, eval_displayCtaUrl.
  destruct Hblank as [-> | ->]; cbn [default]; [reflexivity | apply andb_false_r].
Qed.

(** X5. An empty-string override of secondaryCtaText or of secondaryCtaUrl
    removes the secondary link and leaves the primary link as it would
    be. *)
Theorem empty_override_hides_secondary_link (m : Scope) (props : Props.t) :
  Props.secondaryCtaText props = Some "" \/ Props.secondaryCtaUrl props = Some "" ->
  elementsOfType "Link" (eval (PhysiotherapyHero cn props) m)
  = if truthy (eval (displayCtaText props) m) && truthy (eval (displayCtaUrl props) m)
    then [primaryLink (eval (displayCtaText props) m) (eval (displayCtaUrl props) m)]
    else [].
Proof.
  intros Hblank.
  rewrite hero_links, links_primaryCta, links_secondaryCta.
  assert (truthy (eval (displaySecondaryCtaText props) m)
          && truthy (eval (displaySecondaryCtaUrl props) m) = false) as ->;
    [|apply app_nil_r].
  rewrite eval_displaySecondaryCtaText, eval_displaySecondaryCtaUrl.
  destruct Hblank as [-> | ->]; cbn [default]; [reflexivity | apply andb_false_r].
Qed.

(** X6. The text the tree shows is the resolved title, then the resolved
    description, then the label of each link that is rendered; URLs, image
    sources, alt texts and class names add nothing to it. *)
Theorem text_of_rendering (m : Scope) (props : Props.t) :
  textContent (eval (PhysiotherapyHero cn props) m)
  = eval (displayTitle props) m
    ++ eval (displayDescription props) m
    ++ (if truthy (eval (displayCtaText props) m) && truthy (eval (displayCtaUrl props) m)
        then eval (displayCtaText props) m else "")
    ++ (if truthy (eval (displaySecondaryCtaText props) m)
           && truthy (eval (displaySecondaryCtaUrl props) m)
        then eval (displaySecondaryCtaText props) m else "").
Proof.
  rewrite eval_displayTitle, eval_displayDescription, eval_displayCtaText,
    eval_displayCtaUrl, eval_displaySecondaryCtaText, eval_displaySecondaryCtaUrl.
  run_hero. cbn [textContent List.map String.concat].
  rewrite !textContent_primaryCta, !textContent_secondaryCta.
  repeat change ("" ++ ?x) with x.
  now rewrite append_empty_r.
Qed.

(** X7. The icons of the primary link are in the tree exactly when the
    primary link is, one chevron and one arrow, each hidden from assistive
    technology; the secondary link brings none. *)
Theorem icons_follow_primary_link (m : Scope) (props : Props.t) :
  List.map (attr "aria-hidden")
    (elementsOfType "ChevronRight" (eval (PhysiotherapyHero cn props) m))
  = (if truthy (eval (displayCtaText props) m) && truthy (eval (displayCtaUrl props) m)
     then [Some (AStr "true")] else [])
  /\ List.map (attr "aria-hidden")
    (elementsOfType "ArrowRight" (eval (PhysiotherapyHero cn props) m))
  = (if truthy (eval (displayCtaText props) m) && truthy (eval (displayCtaUrl props) m)
     then [Some (AStr "true")] else []).
Proof.
  rewrite eval_displayCtaText, eval_displayCtaUrl.
  run_hero. cbn [elementsOfType flat_map String.eqb Ascii.eqb Bool.eqb app].
  rewrite !primaryCta_cases, !secondaryCta_cases.
  destruct (truthy (default (HeroContent.ctaText (heroContent m)) (Props.ctaText props))
            && truthy (default (HeroContent.ctaUrl (heroContent m)) (Props.ctaUrl props)));
    destruct (truthy (default (HeroContent.secondaryCtaText (heroContent m))
                        (Props.secondaryCtaText props))
              && truthy (default (HeroContent.secondaryCtaUrl (heroContent m))
                           (Props.secondaryCtaUrl props)));
    split; reflexivity.
Qed.

(** X8. The className prop reaches the class list of the section and
    nothing else: the section has the one attribute
    [className = cn("relative overflow-hidden bg-background", className)],
    and everything below the section is the same whatever className is.
    Neither className, size nor the class merger changes what the grid
    holds: the two columns are the same for any two renderings that agree
    on the eight content props. *)
Theorem class_props_leave_content (m : Scope) (cn' : list (option string) -> string)
    (title description heroImage heroImageAlt ctaText ctaUrl secondaryCtaText
       secondaryCtaUrl className className' : option string)
    (size' size'' : option SizeVariant) :
  attributes
    (eval (PhysiotherapyHero cn
             (Props.mk title description heroImage heroImageAlt ctaText ctaUrl
                secondaryCtaText secondaryCtaUrl size' className)) m)
  = [("className", AStr (cn [Some "relative overflow-hidden bg-background"; className]))]
  /\ attr "className"
       (eval (PhysiotherapyHero cn
                (Props.mk title description heroImage heroImageAlt ctaText ctaUrl
                   secondaryCtaText secondaryCtaUrl size' className)) m)
     = Some (AStr (cn [Some "relative overflow-hidden bg-background"; className]))
  /\ children
       (eval (PhysiotherapyHero cn
                (Props.mk title description heroImage heroImageAlt ctaText ctaUrl
                   secondaryCtaText secondaryCtaUrl size' className)) m)
     = children
         (eval (PhysiotherapyHero cn
                  (Props.mk title description heroImage heroImageAlt ctaText ctaUrl
                     secondaryCtaText secondaryCtaUrl size' className')) m)
  /\ gridChildren
       (eval (PhysiotherapyHero cn
                (Props.mk title description heroImage heroImageAlt ctaText ctaUrl
                   secondaryCtaText secondaryCtaUrl size' className)) m)
     = gridChildren
         (eval (PhysiotherapyHero cn'
                  (Props.mk title description heroImage heroImageAlt ctaText ctaUrl
                     secondaryCtaText secondaryCtaUrl size'' className')) m).
Proof.
  run_hero. repeat split.
Qed.

(** X9. Rendering depends on the props only through the resolved values:
    two props with the same className whose nine resolved values agree in
    a scope render the same tree there, so passing a default explicitly is
    the same as leaving it out. *)
Theorem same_resolved_values_same_tree (m : Scope) (props props' : Props.t) :
  Props.className props = Props.className props' ->
  eval (displayTitle props) m = eval (displayTitle props') m ->
  eval (displayDescription props) m = eval (displayDescription props') m ->
  eval (displayImage props) m = eval (displayImage props') m ->
  eval (displayImageAlt props) m = eval (displayImageAlt props') m ->
  eval (displayCtaText props) m = eval (displayCtaText props') m ->
  eval (displayCtaUrl props) m = eval (displayCtaUrl props') m ->
  eval (displaySecondaryCtaText props) m = eval (displaySecondaryCtaText props') m ->
  eval (displaySecondaryCtaUrl props) m = eval (displaySecondaryCtaUrl props') m ->
  eval (displaySize props) m = eval (displaySize props') m ->
  eval (PhysiotherapyHero cn props) m = eval (PhysiotherapyHero cn props') m.
Proof.
  rewrite !eval_displayTitle, !eval_displayDescription, !eval_displayImage,
    !eval_displayImageAlt, !eval_displayCtaText, !eval_displayCtaUrl,
    !eval_displaySecondaryCtaText, !eval_displaySecondaryCtaUrl, !eval_displaySize.
  intros Hcls Ht Hd Hi Ha Hct Hcu Hst Hsu Hsz.
  run_hero. now rewrite Hcls, Ht, Hd, Hi, Ha, Hct, Hcu, Hst, Hsu, Hsz.
Qed.

(** X10. In the module scope as the file sets it up, props that override
    none of ctaText, ctaUrl, secondaryCtaText and secondaryCtaUrl always
    get both links, whatever else they override: the links of the tree are
    labelled "Book Your Assessment" and "Learn More" and point to
    [businessInfo.bookingUrl || "/contact"] and to "/about". *)
Theorem both_links_without_cta_overrides (businessInfo : BusinessInfo) (props : Props.t) :
  Props.ctaText props = None -> Props.ctaUrl props = None ->
  Props.secondaryCtaText props = None -> Props.secondaryCtaUrl props = None ->
  elementsOfType "Link" (eval (PhysiotherapyHero cn props) (moduleScope businessInfo))
  = [primaryLink "Book Your Assessment" (logical_or (bookingUrl businessInfo) "/contact");
     secondaryLink "Learn More" "/about"]
  /\ List.map textContent
       (elementsOfType "Link" (eval (PhysiotherapyHero cn props) (moduleScope businessInfo)))
     = ["Book Your Assessment"; "Learn More"]
  /\ List.map (attr "href")
       (elementsOfType "Link" (eval (PhysiotherapyHero cn props) (moduleScope businessInfo)))
     = [Some (AStr (logical_or (bookingUrl businessInfo) "/contact"));
        Some (AStr "/about")].
Proof.
  intros Hct Hcu Hst Hsu.
  pose proof (moduleScope_ctaUrl_truthy businessInfo) as Hu. cbn in Hu.
  rewrite hero_links, links_primaryCta, links_secondaryCta.
  rewrite eval_displayCtaText, eval_displayCtaUrl, eval_displaySecondaryCtaText,
    eval_displaySecondaryCtaUrl, Hct, Hcu, Hst, Hsu.
  cbn. rewrite Hu. repeat split.
Qed.

End Coverage.

(** ** Concrete runs of the further properties *)

(** [empty_override_hides_primary_link] with [ctaText=""]: only the
    secondary link is left. *)
Lemma empty_override_hides_primary_link_witness :
  (Props.ctaText (Props.mk None None None None (Some "") None None None None None) = Some ""
   \/ Props.ctaUrl (Props.mk None None None None (Some "") None None None None None) = Some "")
  /\ elementsOfType "Link"
       (eval (PhysiotherapyHero joinClasses
                (Props.mk None None None None (Some "") None None None None None))
          (moduleScope {| bookingUrl := Some "/book" |}))
     = [secondaryLink "Learn More" "/about"].
Proof.
  split; [left; reflexivity|].
  apply (empty_override_hides_primary_link joinClasses
           (moduleScope {| bookingUrl := Some "/book" |})
           (Props.mk None None None None (Some "") None None None None None)).
  left; reflexivity.
Defined.

(** [empty_override_hides_secondary_link] with [secondaryCtaUrl=""]: only
    the primary link is left. *)
Lemma empty_override_hides_secondary_link_witness :
  (Props.secondaryCtaText (Props.mk None None None None None None None (Some "") None None)
   = Some ""
   \/ Props.secondaryCtaUrl (Props.mk None None None None None None None (Some "") None None)
      = Some "")
  /\ elementsOfType "Link"
       (eval (PhysiotherapyHero joinClasses
                (Props.mk None None None None None None None (Some "") None None))
          (moduleScope {| bookingUrl := Some "/book" |}))
     = [primaryLink "Book Your Assessment" "/book"].
Proof.
  split; [right; reflexivity|].
  apply (empty_override_hides_secondary_link joinClasses
           (moduleScope {| bookingUrl := Some "/book" |})
           (Props.mk None None None None None None None (Some "") None None)).
  right; reflexivity.
Defined.

(** [same_resolved_values_same_tree]: the default title passed as a prop
    renders as no props at all. *)
Lemma same_resolved_values_same_tree_witness :
  eval (displayTitle (titleOnly "Move Better, Feel Better, Live Better"))
       (moduleScope {| bookingUrl := None |})
  = eval (displayTitle Props.empty) (moduleScope {| bookingUrl := None |})
  /\ eval (PhysiotherapyHero joinClasses (titleOnly "Move Better, Feel Better, Live Better"))
          (moduleScope {| bookingUrl := None |})
     = eval (PhysiotherapyHero joinClasses Props.empty) (moduleScope {| bookingUrl := None |}).
Proof.
  split; [reflexivity|].
  apply (same_resolved_values_same_tree joinClasses (moduleScope {| bookingUrl := None |})
           (titleOnly "Move Better, Feel Better, Live Better") Props.empty);
    reflexivity.
Defined.

(** [both_links_without_cta_overrides] at the documented usage. *)
Lemma both_links_without_cta_overrides_witness :
  (Props.ctaText sportsInjuryProps = None /\ Props.ctaUrl sportsInjuryProps = None
   /\ Props.secondaryCtaText sportsInjuryProps = None
   /\ Props.secondaryCtaUrl sportsInjuryProps = None)
  /\ elementsOfType "Link"
       (eval (PhysiotherapyHero joinClasses sportsInjuryProps)
          (moduleScope {| bookingUrl := Some "/book" |}))
     = [primaryLink "Book Your Assessment" "/book"; secondaryLink "Learn More" "/about"]
  /\ List.map textContent
       (elementsOfType "Link"
          (eval (PhysiotherapyHero joinClasses sportsInjuryProps)
             (moduleScope {| bookingUrl := Some "/book" |})))
     = ["Book Your Assessment"; "Learn More"]
  /\ List.map (attr "href")
       (elementsOfType "Link"
          (eval (PhysiotherapyHero joinClasses sportsInjuryProps)
             (moduleScope {| bookingUrl := Some "/book" |})))
     = [Some (AStr "/book"); Some (AStr "/about")].
Proof.
  split; [repeat split|].
  apply (both_links_without_cta_overrides joinClasses {| bookingUrl := Some "/book" |}
           sportsInjuryProps); reflexivity.
Defined.
